(** * Jobly model layer: dynamic SQL assembly and the entity repositories

    A shallow embedding of

      - [helpers/sql.js]    ([sqlForPartialUpdate]),
      - [models/company.js] ([Company.create], [findAll], [get], [update],
                            [remove]),
      - [models/job.js]     ([Job.create], [findAll], [get], [update],
                            [remove]),

    together with the properties the specification states about them.

    JavaScript values are a small tagged union; numbers are the integers
    (the specification's filters are integers; NaN only arises from
    [undefined] in a comparison and is handled where it occurs).  A JS
    object used as a mapping is an association list in property order,
    which is the order [Object.keys] and [Object.values] enumerate.

    [await db.query(sql, binds)] is an event of a small program type: a
    repository method is a tree whose nodes are the statements it sends to
    the store, so that "which statement is sent" and "nothing is sent" are
    properties of the method itself.  A relational store interprets the
    fixed statements of [get] and [remove], and the duplicate checks of
    [create]. *)

From Stdlib Require Import String Ascii List ZArith Lia Bool.
From Stdlib Require Import Decimal DecimalString DecimalNat.
Import ListNotations.
Local Open Scope list_scope.
Local Open Scope string_scope.

Set Implicit Arguments.

(** ** JavaScript values *)

Inductive value : Type :=
| VUndefined
| VNull
| VBool (b : bool)
| VNum (z : Z)
| VStr (s : string).

(** ToBoolean. *)
Definition truthy (v : value) : bool :=
  match v with
  | VUndefined | VNull => false
  | VBool b => b
  | VNum z => negb (Z.eqb z 0)
  | VStr EmptyString => false
  | VStr (String _ _) => true
  end.

(** Decimal rendering of an array length or index inside a template
    literal. *)
Definition dec (n : nat) : string := NilZero.string_of_uint (Nat.to_uint n).

(** *** Number::toString on an integer

    A Number is a double; [VNum z] stands for one when [z] is
    representable.  Below [2^53] every integer is, and is printed digit
    for digit.  From [2^53] on, the digits printed are the shortest
    decimal that still rounds to the number (the nearest such one, the
    even one on a tie), followed by zeros up to 21 digits and put in
    exponent form beyond. *)

Definition digits (x : Z) : string := NilZero.string_of_int (Z.to_int x).

Fixpoint strip_zeros (s : string) : string :=
  match s with
  | EmptyString => EmptyString
  | String c rest =>
    match strip_zeros rest with
    | EmptyString =>
      if Ascii.eqb c "0" then EmptyString else String c EmptyString
    | kept => String c kept
    end
  end.

(** [v] rounds to [x], a double of unit in the last place [ulp] and
    mantissa [m]: [v] lies within half a gap of [x]; the bounds count when
    the mantissa is even, and the gap below a power of two is half the
    gap above.  Everything is scaled by four. *)
Definition in_gap (x ulp m v : Z) : bool :=
  let lo4 := (4 * x - (if Z.eqb m (2 ^ 52) then ulp else 2 * ulp))%Z in
  let hi4 := (4 * x + 2 * ulp)%Z in
  if Z.even m
  then Z.leb lo4 (4 * v) && Z.leb (4 * v) hi4
  else Z.ltb lo4 (4 * v) && Z.ltb (4 * v) hi4.

(** The multiple of [10^j] that rounds to [x], if any: one of the two
    multiples around [x], the nearer one, the even one on a tie. *)
Definition candidate (x ulp m : Z) (j : nat) : option Z :=
  let p := (10 ^ Z.of_nat j)%Z in
  let v1 := (x / p * p)%Z in
  let v2 := (v1 + p)%Z in
  match in_gap x ulp m v1, in_gap x ulp m v2 with
  | true, true =>
    if Z.ltb (x - v1) (v2 - x) then Some v1
    else if Z.ltb (v2 - x) (x - v1) then Some v2
    else if Z.even (v1 / p) then Some v1 else Some v2
  | true, false => Some v1
  | false, true => Some v2
  | false, false => None
  end.

(** The decimal with the fewest significant digits that rounds to [x]:
    the candidate of the largest power of ten that has one. *)
Fixpoint shortest (x ulp m : Z) (j : nat) : Z :=
  match candidate x ulp m j with
  | Some v => v
  | None => match j with
            | O => x
            | S j' => shortest x ulp m j'
            end
  end.

Definition exponent_form (v : Z) : string :=
  match strip_zeros (digits v) with
  | EmptyString => "0"
  | String d EmptyString =>
    String d ("e+" ++ dec (String.length (digits v) - 1))
  | String d rest =>
    String d ("." ++ rest ++ "e+" ++ dec (String.length (digits v) - 1))
  end.

Definition number_to_string (z : Z) : string :=
  let x := Z.abs z in
  if Z.ltb x (2 ^ 53) then NilZero.string_of_int (Z.to_int z)
  else
    let ulp := (2 ^ (Z.log2 x - 52))%Z in
    let v := shortest x ulp (x / ulp) (String.length (digits x)) in
    let text := if Nat.leb (String.length (digits v)) 21
                then digits v else exponent_form v in
    if Z.ltb z 0 then "-" ++ text else text.

(** ToString, as a template literal applies it to an interpolated value. *)
Definition to_string (v : value) : string :=
  match v with
  | VUndefined => "undefined"
  | VNull => "null"
  | VBool true => "true"
  | VBool false => "false"
  | VNum z => number_to_string z
  | VStr s => s
  end.

(** [a !== undefined]. *)
Definition is_defined (v : value) : bool :=
  match v with
  | VUndefined => false
  | _ => true
  end.

(** ToNumber on the operands that need no string parsing; [None] is NaN. *)
Definition to_number (v : value) : option Z :=
  match v with
  | VUndefined => None
  | VNull => Some 0%Z
  | VBool true => Some 1%Z
  | VBool false => Some 0%Z
  | VNum z => Some z
  | VStr _ => None
  end.

Definition is_string (v : value) : bool :=
  match v with
  | VStr _ => true
  | _ => false
  end.

(** ** Objects used as mappings *)

Definition object (V : Type) : Type := list (string * V).

(** [Object.keys(o)] and [Object.values(o)]. *)
Definition keys {V} (o : object V) : list string := map fst o.
Definition vals {V} (o : object V) : list V := map snd o.

(** [o[k]] on an own property; [None] stands for [undefined]. *)
Fixpoint lookup {V} (o : object V) (k : string) : option V :=
  match o with
  | [] => None
  | (k', v) :: rest => if String.eqb k' k then Some v else lookup rest k
  end.

(** Destructuring [const { k } = options]. *)
Definition prop (o : object value) (k : string) : value :=
  match lookup o k with
  | Some v => v
  | None => VUndefined
  end.

(** [xs.includes(x)] on an array of strings. *)
Definition includes (xs : list string) (x : string) : bool :=
  existsb (String.eqb x) xs.

(** ** Errors

    [expressError.js] supplies the first three classes; the status of an
    [ExpressError] is the one given at the throw site.  [ReferenceError] is
    the engine's own, raised when an unbound identifier is evaluated, and
    [StoreError] is whatever [db.query] rejects with. *)

Inductive error : Type :=
| ExpressError (message : string) (status : Z)
| BadRequestError (message : string)
| NotFoundError (message : string)
| ReferenceError (identifier : string)
| StoreError (message : string).

Inductive outcome (A : Type) : Type :=
| Return (a : A)
| Throw (e : error).
Arguments Return {A} a.
Arguments Throw {A} e.

(** ** String helpers *)

(** The double-quote character, as a one-character string. *)
Definition dq : string := String "034"%char EmptyString.
(** The line break inside a multi-line template literal. *)
Definition nl : string := String "010"%char EmptyString.

(** A template literal that spans several source lines. *)
Definition template (lines : list string) : string := String.concat nl lines.

(** [xs.map((x, idx) => f(x, idx))], counting from [idx]. *)
Fixpoint map_idx {A B} (f : A -> nat -> B) (idx : nat) (xs : list A) : list B :=
  match xs with
  | [] => []
  | x :: rest => f x idx :: map_idx f (S idx) rest
  end.

(** ** What an object literal inherits

    The members of [Object.prototype], each with the text a template
    literal gives it under Node: a built-in function prints as
    [function name() { [native code] }], and [__proto__] reads the
    prototype itself, a plain object.  None of the names the repositories
    read from an options, data or row object ([name], [title], [handle],
    ...) is among them, so [prop] reads own entries only. *)

Definition native (name : string) : string :=
  "function " ++ name ++ "() { [native code] }".

Definition Object_prototype : object string :=
  [ ("constructor", native "Object");
    ("__defineGetter__", native "__defineGetter__");
    ("__defineSetter__", native "__defineSetter__");
    ("hasOwnProperty", native "hasOwnProperty");
    ("__lookupGetter__", native "__lookupGetter__");
    ("__lookupSetter__", native "__lookupSetter__");
    ("isPrototypeOf", native "isPrototypeOf");
    ("propertyIsEnumerable", native "propertyIsEnumerable");
    ("toString", native "toString");
    ("valueOf", native "valueOf");
    ("__proto__", "[object Object]");
    ("toLocaleString", native "toLocaleString") ].

(** ** helpers/sql.js *)

Module Sql.

(** [jsToSql[colName] || colName].  The alias table is an object
    literal: a name it has no entry for is looked up in
    [Object.prototype], whose members are truthy and are interpolated in
    their string form.  An own alias that is the empty string is falsy,
    and so is the [undefined] of a name found nowhere. *)
Definition column (jsToSql : object string) (colName : string) : string :=
  match lookup jsToSql colName with
  | Some (String c s) => String c s
  | Some EmptyString => colName
  | None =>
    match lookup Object_prototype colName with
    | Some member => member
    | None => colName
    end
  end.

Definition assignment (jsToSql : object string) (colName : string) (idx : nat)
  : string :=
  dq ++ column jsToSql colName ++ dq ++ "=$" ++ dec (idx + 1).

(** [keys.map((colName, idx) => ...)]. *)
Definition cols (dataToUpdate : object value) (jsToSql : object string)
  : list string :=
  map_idx (assignment jsToSql) 0 (keys dataToUpdate).

Record partial_update : Type := {
  setCols : string;
  values : list value
}.

Definition sqlForPartialUpdate (dataToUpdate : object value)
  (jsToSql : object string) : outcome partial_update :=
  if Nat.eqb (List.length (keys dataToUpdate)) 0
  then Throw (BadRequestError "No data")
  else Return {| setCols := String.concat ", " (cols dataToUpdate jsToSql);
                 values := vals dataToUpdate |}.

End Sql.

(** ** Programs over the store

    [await db.query(sql, binds)] suspends the method until the store
    answers with rows; a rejected query propagates, as the methods have no
    handler. *)

Definition row : Type := object value.

Inductive prog (A : Type) : Type :=
| Done (r : outcome A)
| Query (sql : string) (binds : list value) (k : list row -> prog A).
Arguments Done {A} r.
Arguments Query {A} sql binds k.

(** The statements a program sends when the store answers every query
    with [answer]. *)
Fixpoint sent {A} (answer : string -> list value -> list row) (p : prog A)
  : list (string * list value) :=
  match p with
  | Done _ => []
  | Query sql binds k => (sql, binds) :: sent answer (k (answer sql binds))
  end.

(** ** The assembly state of [findAll]: [search] and [values] *)

Record builder : Type := {
  search : string;
  values : list value
}.

(** [search += fragment] *)
Definition append (fragment : string) (b : builder) : builder :=
  {| search := search b ++ fragment; values := values b |}.

(** [values.push(v)] *)
Definition push (v : value) (b : builder) : builder :=
  {| search := search b; values := (values b ++ [v])%list |}.

(** [a > b] on operands that need no string conversion: [undefined] is
    NaN and compares false.  When an operand is a string the comparison is
    lexicographic or goes through StringToNumber; that case is left to
    [gt_string]. *)
Definition js_gt (gt_string : value -> value -> bool) (a b : value) : bool :=
  if is_string a || is_string b then gt_string a b
  else match to_number a, to_number b with
       | Some x, Some y => Z.gtb x y
       | _, _ => false
       end.

(** [!xs] on an array: an array is an object, hence truthy whatever its
    length. *)
Definition array_truthy {A} (xs : list A) : bool := true.

(** ** models/company.js *)

Module Company.

Record job_view : Type := {
  id : value;
  title : value;
  salary : value;
  equity : value
}.

Record company_view : Type := {
  name : value;
  description : value;
  num_employees : value;
  logo_url : value;
  jobs : job_view
}.

Definition validFilters : list string :=
  ["name"; "minEmployees"; "maxEmployees"].

(** [Object.keys(options).filter((filter) => !validFilters.includes(filter))] *)
Definition invalidFilters (options : object value) : list string :=
  filter (fun f => negb (includes validFilters f)) (keys options).

Definition base : string :=
  template
    [ "SELECT handle,";
      "                      name,";
      "                      description,";
      "                      num_employees AS " ++ dq ++ "numEmployees" ++ dq ++ ",";
      "                      logo_url AS " ++ dq ++ "logoUrl" ++ dq;
      "               FROM companies" ].

(** [if (name) { ... }] *)
Definition filter_name (name : value) (b : builder) : builder :=
  if truthy name
  then push (VStr ("%" ++ to_string name ++ "%"))
            (append "WHERE name ILIKE $1" b)
  else b.

(** [if (minEmployees) { ... }] *)
Definition filter_minEmployees (minEmployees : value) (b : builder) : builder :=
  if truthy minEmployees
  then push minEmployees
            (if Nat.eqb (List.length (values b)) 0
             then append "WHERE num_employees >= $1" b
             else append ("AND num_employees >= $"
                            ++ dec (List.length (values b) + 1)) b)
  else b.

(** [if (maxEmployees) { ... }] *)
Definition filter_maxEmployees (maxEmployees : value) (b : builder) : builder :=
  if truthy maxEmployees
  then push maxEmployees
            (if Nat.eqb (List.length (values b)) 0
             then append "WHERE num_employees <= $1" b
             else append ("AND num_employees >=$"
                            ++ dec (List.length (values b) + 1)) b)
  else b.

(** The assembly state after the declaration of [values] and after each
    of the four statements that follow it. *)
Definition states (options : object value) : list builder :=
  let b0 := {| search := base; values := [] |} in
  let b1 := filter_name (prop options "name") b0 in
  let b2 := filter_minEmployees (prop options "minEmployees") b1 in
  let b3 := filter_maxEmployees (prop options "maxEmployees") b2 in
  let b4 := append "ORDER BY name" b3 in
  [b0; b1; b2; b3; b4].

(** The state [db.query(search, values)] is called with. *)
Definition assemble (options : object value) : builder :=
  append "ORDER BY name"
    (filter_maxEmployees (prop options "maxEmployees")
       (filter_minEmployees (prop options "minEmployees")
          (filter_name (prop options "name")
             {| search := base; values := [] |}))).

Section FindAll.

Variable gt_string : value -> value -> bool.

Definition findAll (options : object value) : prog (list row) :=
  let minEmployees := prop options "minEmployees" in
  let maxEmployees := prop options "maxEmployees" in
  if Nat.ltb 0 (List.length (invalidFilters options))
  then Done (Throw (ExpressError "Invalid filter option" 400))
  else if js_gt gt_string minEmployees maxEmployees
  then Done (Throw (ExpressError "Employee filter conflict" 400))
  else
    let b := assemble options in
    Query (search b) (values b) (fun rows => Done (Return rows)).

End FindAll.

Definition get_sql : string :=
  template
    [ "SELECT c.handle, c.name, c.description,";
      "                  c.num_employees AS " ++ dq ++ "numEmployees" ++ dq ++ ",";
      "                  c.logo_url AS " ++ dq ++ "logoUrl" ++ dq ++ ",";
      "                  j.id, j.title, j.salary, j.equity";
      "           FROM companies AS c";
      "           JOIN jobs AS j ON c.handle = j.company_handle";
      "           WHERE c.handle = $1" ].

(** The callback of [companyRes.rows.map]. *)
Definition view (r : row) : company_view :=
  {| name := prop r "name";
     description := prop r "description";
     num_employees := prop r "numEmployees";
     logo_url := prop r "logoUrl";
     jobs := {| id := prop r "id";
                title := prop r "title";
                salary := prop r "salary";
                equity := prop r "equity" |} |}.

Definition get (handle : string) : prog (list company_view) :=
  Query get_sql [VStr handle] (fun rows =>
    let company := map view rows in
    if negb (array_truthy company)
    then Done (Throw (NotFoundError ("No company: " ++ handle)))
    else Done (Return company)).

Definition jsToSql : object string :=
  [("numEmployees", "num_employees"); ("logoUrl", "logo_url")].

Definition update_sql (setCols handleVarIdx : string) : string :=
  template
    [ "UPDATE companies ";
      "                      SET " ++ setCols ++ " ";
      "                      WHERE handle = " ++ handleVarIdx ++ " ";
      "                      RETURNING handle, ";
      "                                name, ";
      "                                description, ";
      "                                num_employees AS " ++ dq ++ "numEmployees" ++ dq ++ ", ";
      "                                logo_url AS " ++ dq ++ "logoUrl" ++ dq ].

Definition update (handle : string) (data : object value) : prog row :=
  match Sql.sqlForPartialUpdate data jsToSql with
  | Throw e => Done (Throw e)
  | Return u =>
    let handleVarIdx := "$" ++ dec (List.length (Sql.values u) + 1) in
    Query (update_sql (Sql.setCols u) handleVarIdx)
          (Sql.values u ++ [VStr handle])%list
          (fun rows =>
             match rows with
             | [] => Done (Throw (NotFoundError ("No company: " ++ handle)))
             | company :: _ => Done (Return company)
             end)
  end.

Definition remove_sql : string :=
  template
    [ "DELETE";
      "           FROM companies";
      "           WHERE handle = $1";
      "           RETURNING handle" ].

Definition remove (handle : string) : prog unit :=
  Query remove_sql [VStr handle] (fun rows =>
    match rows with
    | [] => Done (Throw (NotFoundError ("No company: " ++ handle)))
    | company :: _ => Done (Return tt)
    end).

Definition duplicate_sql : string :=
  template
    [ "SELECT handle";
      "           FROM companies";
      "           WHERE handle = $1" ].

Definition insert_sql : string :=
  template
    [ "INSERT INTO companies";
      "           (handle, name, description, num_employees, logo_url)";
      "           VALUES ($1, $2, $3, $4, $5)";
      "           RETURNING handle, name, description, num_employees AS " ++ dq ++ "numEmployees" ++ dq ++ ", logo_url AS " ++ dq ++ "logoUrl" ++ dq ].

(** [create({ handle, name, description, numEmployees, logoUrl })]; the
    result is [result.rows[0]], [None] standing for [undefined]. *)
Definition create (data : object value) : prog (option row) :=
  let handle := prop data "handle" in
  let name := prop data "name" in
  let description := prop data "description" in
  let numEmployees := prop data "numEmployees" in
  let logoUrl := prop data "logoUrl" in
  Query duplicate_sql [handle] (fun duplicateCheck =>
    match duplicateCheck with
    | _ :: _ =>
      Done (Throw (BadRequestError
                     ("Duplicate company: " ++ to_string handle)))
    | [] =>
      Query insert_sql [handle; name; description; numEmployees; logoUrl]
            (fun rows => Done (Return (hd_error rows)))
    end).

End Company.

(** ** models/job.js *)

Module Job.

Definition validFilters : list string := ["title"; "minSalary"; "hasEquity"].

Definition invalidFilters (options : object value) : list string :=
  filter (fun f => negb (includes validFilters f)) (keys options).

Definition base : string :=
  template
    [ "SELECT title,";
      "                      salary,";
      "                      equity,";
      "                      company_handle AS " ++ dq ++ "companyHandle" ++ dq;
      "               FROM jobs" ].

(** [if (title) { ... }] *)
Definition filter_title (title : value) (b : builder) : builder :=
  if truthy title
  then push (VStr ("%" ++ to_string title ++ "%"))
            (append "WHERE title ILIKE $1" b)
  else b.

(** [if (minSalary) { ... }] *)
Definition filter_minSalary (minSalary : value) (b : builder) : builder :=
  if truthy minSalary
  then
    let index := List.length (values b) + 1 in
    push minSalary
         (append (if Nat.eqb (List.length (values b)) 0
                  then " WHERE salary >= $" ++ dec index
                  else " AND salary >= $" ++ dec index) b)
  else b.

(** [if (hasEquity !== undefined) { ... }] *)
Definition filter_hasEquity (hasEquity : value) (b : builder) : builder :=
  if is_defined hasEquity
  then
    let operator := if truthy hasEquity then ">" else "=" in
    append (if Nat.eqb (List.length (values b)) 0
            then " WHERE equity " ++ operator ++ " 0"
            else " AND equity " ++ operator ++ " 0") b
  else b.

Definition states (options : object value) : list builder :=
  let b0 := {| search := base; values := [] |} in
  let b1 := filter_title (prop options "title") b0 in
  let b2 := filter_minSalary (prop options "minSalary") b1 in
  let b3 := filter_hasEquity (prop options "hasEquity") b2 in
  let b4 := append "ORDER BY title" b3 in
  [b0; b1; b2; b3; b4].

Definition assemble (options : object value) : builder :=
  append "ORDER BY title"
    (filter_hasEquity (prop options "hasEquity")
       (filter_minSalary (prop options "minSalary")
          (filter_title (prop options "title")
             {| search := base; values := [] |}))).

Definition findAll (options : object value) : prog (list row) :=
  if Nat.ltb 0 (List.length (invalidFilters options))
  then Done (Throw (ExpressError "Invalid filter option" 400))
  else
    let b := assemble options in
    Query (search b) (values b) (fun rows => Done (Return rows)).

Definition get_sql : string :=
  template
    [ "SELECT title,";
      "                  salary,";
      "                  equity,";
      "                  company_handle AS " ++ dq ++ "companyHandle" ++ dq;
      "           FROM jobs";
      "           WHERE title = $1" ].

Definition get (title : string) : prog row :=
  Query get_sql [VStr title] (fun rows =>
    match rows with
    | [] => Done (Throw (NotFoundError ("No job: " ++ title)))
    | job :: _ => Done (Return job)
    end).

Definition jsToSql : object string :=
  [("salary", "salary"); ("equity", "equity")].

Definition update_sql (setCols titleVarIdx : string) : string :=
  template
    [ "UPDATE companies ";
      "                      SET " ++ setCols ++ " ";
      "                      WHERE title = " ++ titleVarIdx ++ " ";
      "                      RETURNING title, ";
      "                                salary, ";
      "                                equity " ].

Definition update (title : string) (data : object value) : prog row :=
  match Sql.sqlForPartialUpdate data jsToSql with
  | Throw e => Done (Throw e)
  | Return u =>
    let titleVarIdx := "$" ++ dec (List.length (Sql.values u) + 1) in
    Query (update_sql (Sql.setCols u) titleVarIdx)
          (Sql.values u ++ [VStr title])%list
          (fun rows =>
             match rows with
             | [] => Done (Throw (NotFoundError ("No job: " ++ title)))
             | job :: _ => Done (Return job)
             end)
  end.

Definition remove_sql : string :=
  template
    [ "DELETE";
      "           FROM jobs";
      "           WHERE title = $1";
      "           RETURNING title" ].

(** When no row comes back the message of the error is the template
    literal [`No company: ${handle}`].  No binding of [handle] is in scope
    in [job.js] (the parameter is [title]), so evaluating the literal
    raises a ReferenceError before [NotFoundError] is constructed. *)
Definition remove (title : string) : prog unit :=
  Query remove_sql [VStr title] (fun rows =>
    match rows with
    | [] => Done (Throw (ReferenceError "handle"))
    | company :: _ => Done (Return tt)
    end).

Definition duplicate_sql : string :=
  template
    [ "SELECT id";
      "           FROM jobs";
      "           WHERE title = $1" ].

Definition insert_sql : string :=
  template
    [ "INSERT INTO jobs";
      "           (title, salary, equity, companyHandle)";
      "           VALUES ($1, $2, $3, $4)";
      "           RETURNING title, salary, equity, company_handle AS " ++ dq ++ "companyHandle" ++ dq ].

(** [create({ title, salary, equity, companyHandle })] *)
Definition create (data : object value) : prog (option row) :=
  let title := prop data "title" in
  let salary := prop data "salary" in
  let equity := prop data "equity" in
  let companyHandle := prop data "companyHandle" in
  Query duplicate_sql [title] (fun duplicateCheck =>
    match duplicateCheck with
    | _ :: _ =>
      Done (Throw (BadRequestError
                     ("Duplicate job: " ++ to_string title ++ " at "
                        ++ to_string companyHandle)))
    | [] =>
      Query insert_sql [title; salary; equity; companyHandle]
            (fun rows => Done (Return (hd_error rows)))
    end).

End Job.

(** ** The store

    Two tables, and the meaning of the four fixed statements of [get] and
    [remove].  The statements [findAll], [create] and [update] send are
    not interpreted: [other] answers them.  The schema file is not part of
    the sources at hand; whether deleting a company also deletes its jobs
    (a cascading foreign key) is the flag [cascade]. *)

Module Store.

Record company_row : Type := {
  handle : string;
  name : string;
  description : string;
  num_employees : value;
  logo_url : value
}.

Record job_row : Type := {
  id : Z;
  title : string;
  salary : value;
  equity : value;
  company_handle : string
}.

Record t : Type := {
  companies : list company_row;
  jobs : list job_row
}.

(** A row of [companies AS c JOIN jobs AS j], under the labels of the
    selection list of [Company.get_sql]. *)
Definition joined (c : company_row) (j : job_row) : row :=
  [ ("handle", VStr (handle c));
    ("name", VStr (name c));
    ("description", VStr (description c));
    ("numEmployees", num_employees c);
    ("logoUrl", logo_url c);
    ("id", VNum (id j));
    ("title", VStr (title j));
    ("salary", salary j);
    ("equity", equity j) ].

(** [Company.get_sql]: the inner join on [c.handle = j.company_handle],
    restricted to [c.handle = $1]. *)
Definition select_company_jobs (key : string) (st : t) : list row :=
  flat_map
    (fun c =>
       if String.eqb (handle c) key
       then map (joined c)
                (filter (fun j => String.eqb (company_handle j) (handle c))
                        (jobs st))
       else [])
    (companies st).

(** [Company.remove_sql]: [DELETE ... WHERE handle = $1 RETURNING handle]. *)
Definition delete_company (cascade : bool) (key : string) (st : t)
  : list row * t :=
  (map (fun c => [("handle", VStr (handle c))])
       (filter (fun c => String.eqb (handle c) key) (companies st)),
   {| companies :=
        filter (fun c => negb (String.eqb (handle c) key)) (companies st);
      jobs :=
        if cascade
        then filter (fun j => negb (String.eqb (company_handle j) key))
                    (jobs st)
        else jobs st |}).

(** [Job.get_sql]: [SELECT ... FROM jobs WHERE title = $1]. *)
Definition select_job (key : string) (st : t) : list row :=
  map (fun j => [ ("title", VStr (title j));
                  ("salary", salary j);
                  ("equity", equity j);
                  ("companyHandle", VStr (company_handle j)) ])
      (filter (fun j => String.eqb (title j) key) (jobs st)).

(** [Job.remove_sql]: [DELETE FROM jobs WHERE title = $1 RETURNING title]. *)
Definition delete_job (key : string) (st : t) : list row * t :=
  (map (fun j => [("title", VStr (title j))])
       (filter (fun j => String.eqb (title j) key) (jobs st)),
   {| companies := companies st;
      jobs := filter (fun j => negb (String.eqb (title j) key)) (jobs st) |}).

Section Execute.

Variable cascade : bool.
Variable other : string -> list value -> t -> outcome (list row) * t.

(** [db.query(sql, binds)] *)
Definition execute (sql : string) (binds : list value) (st : t)
  : outcome (list row) * t :=
  match binds with
  | [VStr key] =>
    if String.eqb sql Company.get_sql
    then (Return (select_company_jobs key st), st)
    else if String.eqb sql Company.remove_sql
    then (Return (fst (delete_company cascade key st)),
          snd (delete_company cascade key st))
    else if String.eqb sql Job.get_sql
    then (Return (select_job key st), st)
    else if String.eqb sql Job.remove_sql
    then (Return (fst (delete_job key st)), snd (delete_job key st))
    else other sql binds st
  | _ => other sql binds st
  end.

(** Running a method against a store: every query is answered by
    [execute]; a rejected query ends the method with that error. *)
Fixpoint run {A} (p : prog A) (st : t) : outcome A * t :=
  match p with
  | Done r => (r, st)
  | Query sql binds k =>
    match execute sql binds st with
    | (Return rows, st') => run (k rows) st'
    | (Throw e, st') => (Throw e, st')
    end
  end.

End Execute.

Definition has_company (key : string) (st : t) : bool :=
  existsb (fun c => String.eqb (handle c) key) (companies st).

Definition has_job (key : string) (st : t) : bool :=
  existsb (fun j => String.eqb (title j) key) (jobs st).

(** *** The duplicate checks of [create]

    The two lookups [create] starts with are given a meaning here, to be
    passed to [execute] as its [other].  The insertions are not: what the
    store accepts depends on the schema, which is not part of the sources
    at hand; they go to [other]. *)

(** [Company.duplicate_sql]: [SELECT handle FROM companies WHERE handle = $1]. *)
Definition select_company_handle (key : string) (st : t) : list row :=
  map (fun c => [("handle", VStr (handle c))])
      (filter (fun c => String.eqb (handle c) key) (companies st)).

(** [Job.duplicate_sql]: [SELECT id FROM jobs WHERE title = $1]. *)
Definition select_job_id (key : string) (st : t) : list row :=
  map (fun j => [("id", VNum (id j))])
      (filter (fun j => String.eqb (title j) key) (jobs st)).

Section Creating.

Variable other : string -> list value -> t -> outcome (list row) * t.

Definition creating (sql : string) (binds : list value) (st : t)
  : outcome (list row) * t :=
  if String.eqb sql Company.duplicate_sql
  then match binds with
       | [VStr key] => (Return (select_company_handle key st), st)
       | _ => other sql binds st
       end
  else if String.eqb sql Job.duplicate_sql
  then match binds with
       | [VStr key] => (Return (select_job_id key st), st)
       | _ => other sql binds st
       end
  else other sql binds st.

End Creating.

End Store.

(** ** Reading an assembled statement

    The positional placeholders of a statement text, in order of
    occurrence: every [$] that is followed by at least one digit, with the
    number its longest run of digits denotes. *)

Definition digit_of (c : ascii) : option nat :=
  let n := nat_of_ascii c in
  if Nat.leb 48 n && Nat.leb n 57 then Some (n - 48) else None.

Inductive scanning : Type :=
| Outside
| Dollar
| Number (n : nat).

Definition flush (s : scanning) : list nat :=
  match s with
  | Number n => [n]
  | _ => []
  end.

Fixpoint scan (s : scanning) (text : string) : list nat :=
  match text with
  | EmptyString => flush s
  | String c rest =>
    match digit_of c, s with
    | Some d, Dollar => scan (Number d) rest
    | Some d, Number n => scan (Number (10 * n + d)) rest
    | Some _, Outside => scan Outside rest
    | None, _ =>
      (flush s ++ scan (if Ascii.eqb c "$" then Dollar else Outside) rest)%list
    end
  end.

Definition placeholders (text : string) : list nat := scan Outside text.


Definition is_space (c : ascii) : bool :=
  let n := nat_of_ascii c in
  Nat.eqb n 32 || Nat.eqb n 9 || Nat.eqb n 10 || Nat.eqb n 13.

(** The last character of a text. *)
Fixpoint last_char (text : string) : option ascii :=
  match text with
  | EmptyString => None
  | String c EmptyString => Some c
  | String _ rest => last_char rest
  end.

(** ** Vocabulary of the specification *)

(** The column of a fragment as the specification words it: the alias
    whenever the table has an entry for the key, the key otherwise. *)
Definition column_as_stated (jsToSql : object string) (colName : string)
  : string :=
  match lookup jsToSql colName with
  | Some a => a
  | None => colName
  end.

(** The error of an unrecognised filter key, and the error of a minimum
    above the maximum: both are [ExpressError]s of status 400, told apart
    by their message. *)
Definition InvalidFilter : error := ExpressError "Invalid filter option" 400.
Definition FilterConflict : error :=
  ExpressError "Employee filter conflict" 400.







(** Every statement of a list is aligned with its binds. *)
Definition all_aligned (calls : list (string * list value)) : Prop :=
  Forall (fun call => placeholders (fst call)
                      = seq 1 (List.length (snd call))) calls.

(** The values [Company.findAll] binds, read off the options: the name
    as a pattern, then the two bounds, each only when truthy. *)
Definition company_binds (options : object value) : list value :=
  ((if truthy (prop options "name")
    then [VStr ("%" ++ to_string (prop options "name") ++ "%")] else [])
   ++ (if truthy (prop options "minEmployees")
       then [prop options "minEmployees"] else [])
   ++ (if truthy (prop options "maxEmployees")
       then [prop options "maxEmployees"] else []))%list.

Definition job_binds (options : object value) : list value :=
  ((if truthy (prop options "title")
    then [VStr ("%" ++ to_string (prop options "title") ++ "%")] else [])
   ++ (if truthy (prop options "minSalary")
       then [prop options "minSalary"] else []))%list.

(** ** A sample store *)

(** A store of three companies, the second without jobs, and two jobs. *)
Definition sample_store : Store.t :=
  {| Store.companies :=
       [ {| Store.handle := "c1"; Store.name := "C1";
            Store.description := "Desc1"; Store.num_employees := VNum 1;
            Store.logo_url := VStr "http://c1.img" |};
         {| Store.handle := "c2"; Store.name := "C2";
            Store.description := "Desc2"; Store.num_employees := VNum 2;
            Store.logo_url := VStr "http://c2.img" |};
         {| Store.handle := "c3"; Store.name := "C3";
            Store.description := "Desc3"; Store.num_employees := VNum 3;
            Store.logo_url := VStr "http://c3.img" |} ];
     Store.jobs :=
       [ {| Store.id := 1; Store.title := "j1"; Store.salary := VNum 100;
            Store.equity := VStr "0.1"; Store.company_handle := "c1" |};
         {| Store.id := 2; Store.title := "j3"; Store.salary := VNum 300;
            Store.equity := VNull; Store.company_handle := "c3" |} ] |}.

(** A store collaborator that rejects the statements it is not asked to
    interpret. *)
Definition rejecting (sql : string) (binds : list value) (st : Store.t)
  : outcome (list row) * Store.t :=
  (Throw (StoreError "not interpreted"), st).

(** * Properties *)

(** ** Basic facts about the helpers *)

Lemma includes_In (xs : list string) (x : string) :
  includes xs x = true <-> In x xs.
Proof.
  unfold includes. rewrite existsb_exists. split.
  - intros (y & Hy & E). apply String.eqb_eq in E. now subst.
  - intros H. exists x. split; [assumption | apply String.eqb_refl].
Qed.

Lemma rejected_keys (allowed : list string) (ks : list string) :
  Nat.ltb 0 (List.length
               (filter (fun f => negb (includes allowed f)) ks)) = true
  <-> exists k, In k ks /\ ~ In k allowed.
Proof.
  split.
  - intros H. apply Nat.ltb_lt in H.
    destruct (filter _ ks) as [|k rest] eqn:E; [simpl in H; lia|].
    assert (Hk : In k (filter (fun f => negb (includes allowed f)) ks))
      by (rewrite E; now left).
    apply filter_In in Hk. destruct Hk as [Hin Hneg].
    exists k. split; [assumption|].
    intros Habs. apply includes_In in Habs. rewrite Habs in Hneg. discriminate.
  - intros (k & Hin & Hout). apply Nat.ltb_lt.
    assert (Hk : In k (filter (fun f => negb (includes allowed f)) ks)).
    { apply filter_In. split; [assumption|].
      destruct (includes allowed k) eqn:E; [|reflexivity].
      apply includes_In in E. contradiction. }
    destruct (filter _ ks); [destruct Hk | simpl; lia].
Qed.

Lemma accepted_keys (allowed : list string) (ks : list string) :
  (forall k, In k ks -> In k allowed) ->
  Nat.ltb 0 (List.length
               (filter (fun f => negb (includes allowed f)) ks)) = false.
Proof.
  intros H.
  destruct (Nat.ltb 0 _) eqn:E; [|reflexivity].
  apply rejected_keys in E. destruct E as (k & Hin & Hout).
  elim Hout. now apply H.
Qed.

Lemma map_idx_length {A B} (f : A -> nat -> B) (xs : list A) :
  forall idx, List.length (map_idx f idx xs) = List.length xs.
Proof.
  induction xs as [|x rest IH]; intros idx; simpl; [reflexivity|].
  now rewrite IH.
Qed.

Lemma map_idx_nth {A B} (f : A -> nat -> B) (xs : list A) :
  forall idx n x,
    nth_error xs n = Some x ->
    nth_error (map_idx f idx xs) n = Some (f x (idx + n)).
Proof.
  induction xs as [|y rest IH]; intros idx n x H.
  - destruct n; discriminate.
  - destruct n as [|n]; simpl in *.
    + injection H as ->. now rewrite Nat.add_0_r.
    + rewrite (IH (S idx) n x H). f_equal. f_equal. lia.
Qed.

Lemma keys_nth {V} (o : object V) n k v :
  nth_error o n = Some (k, v) -> nth_error (keys o) n = Some k.
Proof.
  intros H. unfold keys. now rewrite nth_error_map, H.
Qed.

Lemma vals_nth {V} (o : object V) n k v :
  nth_error o n = Some (k, v) -> nth_error (vals o) n = Some v.
Proof.
  intros H. unfold vals. now rewrite nth_error_map, H.
Qed.

Lemma sqlForPartialUpdate_nonempty data jsToSql :
  data <> [] ->
  Sql.sqlForPartialUpdate data jsToSql
  = Return {| Sql.setCols := String.concat ", " (Sql.cols data jsToSql);
              Sql.values := vals data |}.
Proof.
  intros H. unfold Sql.sqlForPartialUpdate.
  destruct data as [|p rest]; [congruence | reflexivity].
Qed.

Lemma assignment_nth data jsToSql n k v :
  nth_error data n = Some (k, v) ->
  nth_error (Sql.cols data jsToSql) n
  = Some (dq ++ Sql.column jsToSql k ++ dq ++ "=$" ++ dec (S n)).
Proof.
  intros H. unfold Sql.cols.
  rewrite (map_idx_nth _ _ 0 n (keys_nth _ _ H)).
  unfold Sql.assignment. simpl. now rewrite Nat.add_1_r.
Qed.

(** ** The partial-update builder *)

(** C6, as stated, fails: an alias table may hold the empty string for a
    key.  The entry is present, yet [jsToSql[colName] || colName] falls
    through to the key, so the fragment names the key and not the (empty)
    alias. *)
Lemma sqlForPartialUpdate_empty_alias :
  ~ (forall data jsToSql n k v,
        data <> [] ->
        nth_error data n = Some (k, v) ->
        nth_error (Sql.cols data jsToSql) n
        = Some (dq ++ column_as_stated jsToSql k ++ dq ++ "=$" ++ dec (S n))).
Proof.
  intros H.
  specialize (H [("a", VNum 1)] [("a", EmptyString)] 0 "a" (VNum 1)).
  simpl in H.
  assert (E : Some (dq ++ "a" ++ dq ++ "=$1")
              = Some (dq ++ EmptyString ++ dq ++ "=$1")).
  { apply H; [discriminate | reflexivity]. }
  vm_compute in E. discriminate E.
Qed.

(** C6 (amended): for a non-empty [data], [sqlForPartialUpdate] succeeds;
    it builds one fragment per key and returns one value per key, in key
    order; the Nth fragment is ["column"=$N]; and the column is the alias
    when the table holds a non-empty alias for the key, the key itself
    when the table holds an empty alias for it, or holds none and the key
    is not the name of a member the table inherits from
    [Object.prototype]; for such a name without alias the column is the
    text of the inherited member.  On [{firstName: "Aliya", age: 32}]
    with [{firstName: "first_name"}] the fragments are ["first_name"=$1]
    and ["age"=$2] and the values ["Aliya"] and [32]. *)
Theorem sqlForPartialUpdate_fragments (data : object value)
  (jsToSql : object string) :
  data <> [] ->
  Sql.sqlForPartialUpdate data jsToSql
  = Return {| Sql.setCols := String.concat ", " (Sql.cols data jsToSql);
              Sql.values := vals data |}
  /\ List.length (Sql.cols data jsToSql) = List.length data
  /\ List.length (vals data) = List.length data
  /\ (forall n k v,
         nth_error data n = Some (k, v) ->
         exists col,
           nth_error (Sql.cols data jsToSql) n
           = Some (dq ++ col ++ dq ++ "=$" ++ dec (S n))
           /\ nth_error (vals data) n = Some v
           /\ (forall a, lookup jsToSql k = Some a ->
                         a <> EmptyString -> col = a)
           /\ (lookup jsToSql k = Some EmptyString -> col = k)
           /\ (lookup jsToSql k = None ->
               lookup Object_prototype k = None -> col = k)
           /\ (lookup jsToSql k = None ->
               forall member,
                 lookup Object_prototype k = Some member -> col = member))
  /\ Sql.sqlForPartialUpdate
       [("firstName", VStr "Aliya"); ("age", VNum 32)]
       [("firstName", "first_name")]
     = Return {| Sql.setCols :=
                   String.concat ", "
                     [ dq ++ "first_name" ++ dq ++ "=$1";
                       dq ++ "age" ++ dq ++ "=$2" ];
                 Sql.values := [VStr "Aliya"; VNum 32] |}.
Proof.
  intros Hne. split; [now apply sqlForPartialUpdate_nonempty|].
  split; [unfold Sql.cols, keys; now rewrite map_idx_length, length_map|].
  split; [unfold vals; now rewrite length_map|].
  split; [|reflexivity].
  intros n k v Hn. exists (Sql.column jsToSql k).
  split; [now apply assignment_nth with (v := v)|].
  split; [now apply vals_nth with (k := k)|].
  unfold Sql.column.
  destruct (lookup jsToSql k) as [[|c s]|];
    [| |destruct (lookup Object_prototype k)];
    repeat split; intros; congruence.
Qed.

Lemma sqlForPartialUpdate_fragments_witness :
  Sql.sqlForPartialUpdate [("name", VStr "New")] Company.jsToSql
  = Return {| Sql.setCols := dq ++ "name" ++ dq ++ "=$1";
              Sql.values := [VStr "New"] |}.
Proof.
  assert (Hne : [("name", VStr "New")] <> @nil (string * value))
    by discriminate.
  destruct (sqlForPartialUpdate_fragments Company.jsToSql Hne) as [E _].
  rewrite E. reflexivity.
Defined.

(** ** Validation of the filter mapping *)

Lemma Company_findAll_rejects gt_string options :
  (exists k, In k (keys options) /\ ~ In k Company.validFilters) ->
  Company.findAll gt_string options = Done (Throw InvalidFilter).
Proof.
  intros H. apply rejected_keys in H.
  unfold Company.findAll, Company.invalidFilters. now rewrite H.
Qed.

Lemma Company_findAll_accepts gt_string options :
  (forall k, In k (keys options) -> In k Company.validFilters) ->
  Company.findAll gt_string options
  = if js_gt gt_string (prop options "minEmployees")
                       (prop options "maxEmployees")
    then Done (Throw FilterConflict)
    else Query (search (Company.assemble options))
               (values (Company.assemble options))
               (fun rows => Done (Return rows)).
Proof.
  intros H. apply accepted_keys in H.
  unfold Company.findAll, Company.invalidFilters. now rewrite H.
Qed.

Lemma Job_findAll_rejects options :
  (exists k, In k (keys options) /\ ~ In k Job.validFilters) ->
  Job.findAll options = Done (Throw InvalidFilter).
Proof.
  intros H. apply rejected_keys in H.
  unfold Job.findAll, Job.invalidFilters. now rewrite H.
Qed.

Lemma Job_findAll_accepts options :
  (forall k, In k (keys options) -> In k Job.validFilters) ->
  Job.findAll options
  = Query (search (Job.assemble options)) (values (Job.assemble options))
          (fun rows => Done (Return rows)).
Proof.
  intros H. apply accepted_keys in H.
  unfold Job.findAll, Job.invalidFilters. now rewrite H.
Qed.

(** C8: [findAll] throws the invalid-filter error (status 400) exactly
    when some key of the options lies outside the allow-list, for
    companies ([name], [minEmployees], [maxEmployees]) and for jobs
    ([title], [minSalary], [hasEquity]); hence a mapping whose keys all
    lie in the allow-list is never rejected with it. *)
Theorem findAll_InvalidFilter_iff (gt_string : value -> value -> bool)
  (options : object value) :
  (Company.findAll gt_string options
   = Done (Throw (ExpressError "Invalid filter option" 400))
   <-> exists k, In k (keys options)
                 /\ ~ In k ["name"; "minEmployees"; "maxEmployees"])
  /\ (Job.findAll options
      = Done (Throw (ExpressError "Invalid filter option" 400))
      <-> exists k, In k (keys options)
                    /\ ~ In k ["title"; "minSalary"; "hasEquity"]).
Proof.
  split; split.
  - intros H. apply rejected_keys.
    unfold Company.findAll, Company.invalidFilters in H.
    destruct (Nat.ltb 0 _); [reflexivity|].
    destruct (js_gt _ _ _); discriminate H.
  - apply Company_findAll_rejects.
  - intros H. apply rejected_keys.
    unfold Job.findAll, Job.invalidFilters in H.
    destruct (Nat.ltb 0 _); [reflexivity | discriminate H].
  - apply Job_findAll_rejects.
Qed.

Lemma js_gt_numbers gt_string (a b : Z) :
  js_gt gt_string (VNum a) (VNum b) = Z.gtb a b.
Proof. reflexivity. Qed.

(** C9, as stated, fails: when the mapping also carries an unrecognised
    key, the key check comes first and the error is the invalid-filter
    one, although the minimum exceeds the maximum. *)
Lemma findAll_conflict_after_keys :
  ~ (forall gt_string options a b,
        prop options "minEmployees" = VNum a ->
        prop options "maxEmployees" = VNum b ->
        (a > b)%Z ->
        Company.findAll gt_string options = Done (Throw FilterConflict)).
Proof.
  intros H.
  specialize (H (fun _ _ => false)
                [ ("minEmployees", VNum 100); ("maxEmployees", VNum 50);
                  ("foo", VStr "bar") ]
                100%Z 50%Z eq_refl eq_refl).
  assert (E : (100 > 50)%Z) by lia.
  specialize (H E). vm_compute in H. discriminate H.
Qed.

(** C9 (amended): when every key of the options lies in the allow-list
    and [minEmployees], [maxEmployees] are both present with the minimum
    above the maximum, [Company.findAll] throws the filter-conflict error
    (status 400).  Whenever validation fails, for an unrecognised key or
    for a bound conflict, the method ends with an [ExpressError] of status
    400 without having sent any statement to the store. *)
Theorem findAll_FilterConflict (gt_string : value -> value -> bool)
  (options : object value) (a b : Z) :
  (forall k, In k (keys options) -> In k Company.validFilters) ->
  prop options "minEmployees" = VNum a ->
  prop options "maxEmployees" = VNum b ->
  (a > b)%Z ->
  Company.findAll gt_string options
  = Done (Throw (ExpressError "Employee filter conflict" 400))
  /\ (forall answer, sent answer (Company.findAll gt_string options) = [])
  /\ (forall o : object value,
         (exists k, In k (keys o) /\ ~ In k Company.validFilters)
         \/ js_gt gt_string (prop o "minEmployees") (prop o "maxEmployees")
            = true ->
         (exists message,
             Company.findAll gt_string o
             = Done (Throw (ExpressError message 400)))
         /\ forall answer, sent answer (Company.findAll gt_string o) = []).
Proof.
  intros Hkeys Hmin Hmax Hgt.
  assert (E : Company.findAll gt_string options = Done (Throw FilterConflict)).
  { rewrite (Company_findAll_accepts gt_string options Hkeys).
    rewrite Hmin, Hmax, js_gt_numbers.
    destruct (Z.gtb_spec a b); [reflexivity | lia]. }
  split; [exact E|]. split; [intros answer; now rewrite E|].
  intros o Hfail.
  unfold Company.findAll, Company.invalidFilters.
  destruct (Nat.ltb 0 _) eqn:Ek.
  - split; [now exists "Invalid filter option" | reflexivity].
  - destruct Hfail as [Hbad | Hconf].
    + apply rejected_keys in Hbad. congruence.
    + rewrite Hconf.
      split; [now exists "Employee filter conflict" | reflexivity].
Qed.

Lemma findAll_FilterConflict_witness :
  Company.findAll (fun _ _ => false)
    [("minEmployees", VNum 100); ("maxEmployees", VNum 50)]
  = Done (Throw (ExpressError "Employee filter conflict" 400)).
Proof.
  refine (proj1 (@findAll_FilterConflict (fun _ _ => false)
                   [("minEmployees", VNum 100); ("maxEmployees", VNum 50)]
                   100%Z 50%Z _ eq_refl eq_refl eq_refl)).
  intros k [<- | [<- | []]]; simpl; auto.
Defined.

(** ** The assembled statement *)

Lemma append_assoc (s1 s2 s3 : string) : (s1 ++ s2) ++ s3 = s1 ++ s2 ++ s3.
Proof.
  induction s1 as [|c s1 IH]; simpl; [reflexivity | now rewrite IH].
Qed.


Ltac split_company options :=
  unfold Company.states, Company.assemble, Company.filter_maxEmployees,
    Company.filter_minEmployees, Company.filter_name;
  destruct (truthy (prop options "name"));
  destruct (truthy (prop options "minEmployees"));
  destruct (truthy (prop options "maxEmployees")).

Ltac split_job options :=
  unfold Job.states, Job.assemble, Job.filter_hasEquity,
    Job.filter_minSalary, Job.filter_title;
  destruct (truthy (prop options "title"));
  destruct (truthy (prop options "minSalary"));
  destruct (is_defined (prop options "hasEquity"));
  destruct (truthy (prop options "hasEquity")).

(** C3 (what the code does): whatever the options, the text [findAll]
    assembles ends in [ORDER BY name] (companies) or [ORDER BY title]
    (jobs) glued to what precedes it: the character before [ORDER] is not
    white space.  With no filter the companies statement ends in
    [FROM companiesORDER BY name]; with a name filter the clause is glued
    to the table name as [FROM companiesWHERE name ILIKE $1ORDER BY name]. *)
Theorem findAll_clauses_unseparated (gt_string : value -> value -> bool)
  (options : object value) :
  (exists before c,
      search (Company.assemble options) = before ++ "ORDER BY name"
      /\ last_char before = Some c /\ is_space c = false)
  /\ (exists before c,
         search (Job.assemble options) = before ++ "ORDER BY title"
         /\ last_char before = Some c /\ is_space c = false)
  /\ Company.findAll gt_string []
     = Query (Company.base ++ "ORDER BY name") []
             (fun rows => Done (Return rows))
  /\ (exists before,
         Company.base ++ "ORDER BY name"
         = before ++ "FROM companiesORDER BY name")
  /\ (exists before,
         search (Company.assemble [("name", VStr "net")])
         = before ++ "FROM companiesWHERE name ILIKE $1ORDER BY name")
  /\ (exists before,
         search (Job.assemble [])
         = before ++ "FROM jobsORDER BY title").
Proof.
  split; [|split; [|split; [reflexivity|split; [|split]]]].
  - exists (search (Company.filter_maxEmployees (prop options "maxEmployees")
              (Company.filter_minEmployees (prop options "minEmployees")
                 (Company.filter_name (prop options "name")
                    {| search := Company.base; values := [] |})))).
    split_company options;
      eexists; (split; [reflexivity|]); vm_compute; split; reflexivity.
  - exists (search (Job.filter_hasEquity (prop options "hasEquity")
              (Job.filter_minSalary (prop options "minSalary")
                 (Job.filter_title (prop options "title")
                    {| search := Job.base; values := [] |})))).
    split_job options;
      eexists; (split; [reflexivity|]); vm_compute; split; reflexivity.
  - exists (String.substring 0 (String.length Company.base - 14) Company.base).
    vm_compute. reflexivity.
  - exists (String.substring 0 (String.length Company.base - 14) Company.base).
    vm_compute. reflexivity.
  - exists (String.substring 0 (String.length Job.base - 9) Job.base).
    vm_compute. reflexivity.
Qed.

(** C4 (what the code does): with both bounds present, non-zero and in
    order, [Company.findAll] succeeds and binds the two values in the
    order minimum, maximum after the name pattern, if any; but the
    fragment it appends for the maximum compares with [>=], the same
    operator as the minimum's, and not with [<=]. *)
Theorem findAll_employee_range (gt_string : value -> value -> bool)
  (options : object value) (a b : Z) :
  (forall k, In k (keys options) -> In k Company.validFilters) ->
  prop options "minEmployees" = VNum a ->
  prop options "maxEmployees" = VNum b ->
  (a <= b)%Z -> a <> 0%Z -> b <> 0%Z ->
  let named := Company.filter_name (prop options "name")
                 {| search := Company.base; values := [] |} in
  Company.findAll gt_string options
  = Query (search named
             ++ (match values named with [] => "WHERE" | _ => "AND" end)
             ++ " num_employees >= $" ++ dec (List.length (values named) + 1)
             ++ "AND num_employees >=$" ++ dec (List.length (values named) + 2)
             ++ "ORDER BY name")
          (values named ++ [VNum a; VNum b])%list
          (fun rows => Done (Return rows)).
Proof.
  intros Hkeys Hmin Hmax Hle Ha Hb named.
  rewrite (Company_findAll_accepts gt_string options Hkeys).
  rewrite Hmin, Hmax, js_gt_numbers.
  destruct (Z.gtb_spec a b); [lia|].
  unfold Company.assemble. fold named. rewrite Hmin, Hmax.
  unfold Company.filter_maxEmployees, Company.filter_minEmployees.
  assert (Ta : truthy (VNum a) = true)
    by (simpl; destruct (Z.eqb_spec a 0); [contradiction | reflexivity]).
  assert (Tb : truthy (VNum b) = true)
    by (simpl; destruct (Z.eqb_spec b 0); [contradiction | reflexivity]).
  rewrite Ta, Tb.
  subst named. unfold Company.filter_name.
  destruct (truthy (prop options "name")); reflexivity.
Qed.

Lemma findAll_employee_range_witness :
  Company.findAll (fun _ _ => false)
    [("minEmployees", VNum 50); ("maxEmployees", VNum 100)]
  = Query (Company.base
             ++ "WHERE num_employees >= $1AND num_employees >=$2ORDER BY name")
          [VNum 50; VNum 100]
          (fun rows => Done (Return rows)).
Proof.
  refine (@findAll_employee_range (fun _ _ => false)
            [("minEmployees", VNum 50); ("maxEmployees", VNum 100)]
            50%Z 100%Z _ eq_refl eq_refl _ _ _).
  - intros k [<- | [<- | []]]; simpl; auto.
  - lia.
  - lia.
  - lia.
Defined.

(** A bound of zero is falsy: its fragment is not appended and it is not
    bound. *)
Lemma findAll_zero_bound_skipped (gt_string : value -> value -> bool) :
  Company.findAll gt_string
    [("minEmployees", VNum 0); ("maxEmployees", VNum 10)]
  = Query (Company.base ++ "WHERE num_employees <= $1ORDER BY name")
          [VNum 10]
          (fun rows => Done (Return rows)).
Proof. reflexivity. Qed.

(** C10, as stated, fails: a mapping with [hasEquity] false and a key
    outside the allow-list is rejected by the key check; no statement is
    assembled for it. *)
Lemma findAll_hasEquity_after_keys :
  ~ (forall options,
        prop options "hasEquity" = VBool false ->
        exists sql binds k, Job.findAll options = Query sql binds k).
Proof.
  intros H.
  destruct (H [("hasEquity", VBool false); ("foo", VStr "bar")] eq_refl)
    as (sql & binds & k & E).
  vm_compute in E. discriminate E.
Qed.

(** C10 (amended): when every key of the options lies in the allow-list
    and [hasEquity] is present with a boolean value, the statement
    [Job.findAll] sends carries an equity fragment, introduced by [WHERE]
    when nothing is bound yet and by [AND] otherwise, and no value is
    bound for it: [equity = 0] for [false] (an active filter),
    [equity > 0] for [true]; [ORDER BY title] follows the fragment
    directly.  Only an absent [hasEquity] leaves the statement without
    equity fragment. *)
Theorem findAll_hasEquity (options : object value) (hasEquity : bool) :
  (forall k, In k (keys options) -> In k Job.validFilters) ->
  prop options "hasEquity" = VBool hasEquity ->
  let before := Job.filter_minSalary (prop options "minSalary")
                  (Job.filter_title (prop options "title")
                     {| search := Job.base; values := [] |}) in
  Job.findAll options
  = Query (search before
             ++ (match values before with [] => " WHERE" | _ => " AND" end)
             ++ (if hasEquity then " equity > 0" else " equity = 0")
             ++ "ORDER BY title")
          (values before)
          (fun rows => Done (Return rows))
  /\ (forall o : object value,
         prop o "hasEquity" = VUndefined ->
         Job.assemble o
         = append "ORDER BY title"
             (Job.filter_minSalary (prop o "minSalary")
                (Job.filter_title (prop o "title")
                   {| search := Job.base; values := [] |}))).
Proof.
  intros Hkeys Hflag before. split.
  - rewrite (Job_findAll_accepts options Hkeys).
    unfold Job.assemble. fold before. rewrite Hflag.
    unfold Job.filter_hasEquity, append. simpl.
    destruct (values before) as [|v rest], hasEquity; simpl;
      now rewrite append_assoc.
  - intros o Ho. unfold Job.assemble. now rewrite Ho.
Qed.

Lemma findAll_hasEquity_witness :
  Job.findAll [("hasEquity", VBool false)]
  = Query (Job.base ++ " WHERE equity = 0ORDER BY title") []
          (fun rows => Done (Return rows)).
Proof.
  refine (proj1 (@findAll_hasEquity [("hasEquity", VBool false)] false
                   _ eq_refl)).
  intros k [<- | []]; simpl; auto.
Defined.

(** ** Placeholders and bind values *)









(** The state sent to the store is the last of the states. *)
Lemma assemble_is_last_state options :
  last (Company.states options) {| search := EmptyString; values := [] |}
  = Company.assemble options
  /\ last (Job.states options) {| search := EmptyString; values := [] |}
     = Job.assemble options.
Proof. split; reflexivity. Qed.



(** Scanning the text of [sqlForPartialUpdate]. *)










(** ** The repositories against the store *)

Lemma filter_none {A} (f : A -> bool) (xs : list A) :
  existsb f xs = false -> filter f xs = [].
Proof.
  induction xs as [|x rest IH]; simpl; [reflexivity|].
  destruct (f x); simpl; [discriminate | exact IH].
Qed.

Lemma filter_some {A} (f : A -> bool) (xs : list A) :
  existsb f xs = true -> exists x rest, filter f xs = x :: rest.
Proof.
  induction xs as [|x rest IH]; simpl; [discriminate|].
  destruct (f x); simpl; [intros _; eauto | exact IH].
Qed.

Lemma existsb_filter_negb {A} (f : A -> bool) (xs : list A) :
  existsb f (filter (fun x => negb (f x)) xs) = false.
Proof.
  induction xs as [|x rest IH]; simpl; [reflexivity|].
  destruct (f x) eqn:E; simpl; [exact IH | now rewrite E].
Qed.

Lemma select_company_jobs_missing key st :
  Store.has_company key st = false -> Store.select_company_jobs key st = [].
Proof.
  unfold Store.has_company, Store.select_company_jobs.
  induction (Store.companies st) as [|c rest IH]; simpl; [reflexivity|].
  destruct (String.eqb (Store.handle c) key); simpl; [discriminate|].
  exact IH.
Qed.

Lemma select_company_jobs_jobless key st :
  (forall j, In j (Store.jobs st) -> Store.company_handle j <> key) ->
  Store.select_company_jobs key st = [].
Proof.
  intros H. unfold Store.select_company_jobs.
  induction (Store.companies st) as [|c rest IH]; simpl; [reflexivity|].
  rewrite IH, app_nil_r.
  destruct (String.eqb_spec (Store.handle c) key) as [E | E]; [|reflexivity].
  rewrite filter_none; [reflexivity|].
  destruct (existsb _ (Store.jobs st)) eqn:Ex; [|reflexivity].
  apply existsb_exists in Ex. destruct Ex as (j & Hj & Ej).
  apply String.eqb_eq in Ej. elim (H j Hj). congruence.
Qed.

Section Running.

Variable cascade : bool.
Variable other : string -> list value -> Store.t -> outcome (list row) * Store.t.

Lemma run_Company_get key st :
  Store.run cascade other (Company.get key) st
  = (Return (map Company.view (Store.select_company_jobs key st)), st).
Proof.
  unfold Company.get, Store.run, Store.execute.
  now rewrite String.eqb_refl.
Qed.

Lemma run_Company_remove key st :
  Store.run cascade other (Company.remove key) st
  = (match fst (Store.delete_company cascade key st) with
     | [] => Throw (NotFoundError ("No company: " ++ key))
     | _ :: _ => Return tt
     end,
     snd (Store.delete_company cascade key st)).
Proof.
  unfold Company.remove, Store.run, Store.execute.
  assert (E : String.eqb Company.remove_sql Company.get_sql = false)
    by reflexivity.
  rewrite E, String.eqb_refl.
  now destruct (fst (Store.delete_company cascade key st)).
Qed.

Lemma run_Job_get key st :
  Store.run cascade other (Job.get key) st
  = (match Store.select_job key st with
     | [] => Throw (NotFoundError ("No job: " ++ key))
     | job :: _ => Return job
     end, st).
Proof.
  unfold Job.get, Store.run, Store.execute.
  assert (E1 : String.eqb Job.get_sql Company.get_sql = false) by reflexivity.
  assert (E2 : String.eqb Job.get_sql Company.remove_sql = false)
    by reflexivity.
  rewrite E1, E2, String.eqb_refl.
  now destruct (Store.select_job key st).
Qed.

Lemma run_Job_remove key st :
  Store.run cascade other (Job.remove key) st
  = (match fst (Store.delete_job key st) with
     | [] => Throw (ReferenceError "handle")
     | _ :: _ => Return tt
     end,
     snd (Store.delete_job key st)).
Proof.
  unfold Job.remove, Store.run, Store.execute.
  assert (E1 : String.eqb Job.remove_sql Company.get_sql = false)
    by reflexivity.
  assert (E2 : String.eqb Job.remove_sql Company.remove_sql = false)
    by reflexivity.
  assert (E3 : String.eqb Job.remove_sql Job.get_sql = false) by reflexivity.
  rewrite E1, E2, E3, String.eqb_refl.
  now destruct (fst (Store.delete_job key st)).
Qed.

(** C1 (what the code does): [Company.get] returns the array it maps from
    the joined rows, whatever the store holds; it never throws.  For a
    handle that no company has, and for a company that no job refers to,
    the join is empty and the result is the empty array, not a not-found
    error. *)
Theorem Company_get_returns_rows (key : string) (st : Store.t) :
  Store.run cascade other (Company.get key) st
  = (Return (map Company.view (Store.select_company_jobs key st)), st)
  /\ (Store.has_company key st = false ->
      Store.run cascade other (Company.get key) st = (Return [], st))
  /\ ((forall j, In j (Store.jobs st) -> Store.company_handle j <> key) ->
      Store.run cascade other (Company.get key) st = (Return [], st)).
Proof.
  split; [apply run_Company_get|]. split; intros H; rewrite run_Company_get.
  - now rewrite select_company_jobs_missing.
  - now rewrite select_company_jobs_jobless.
Qed.

(** C5 (what the code does): [Job.remove] of a title no job has ends in a
    ReferenceError, not in a not-found error; [Company.remove] of an
    existing handle succeeds, but the [Company.get] that follows returns
    the empty array instead of failing.  The two other cases behave as
    specified: [Company.remove] of a missing handle throws not-found, and
    after [Job.remove] of an existing title [Job.get] throws not-found. *)
Theorem remove_then_get (key : string) (st : Store.t) :
  (Store.has_job key st = false ->
   fst (Store.run cascade other (Job.remove key) st)
   = Throw (ReferenceError "handle"))
  /\ (Store.has_company key st = true ->
      exists st',
        Store.run cascade other (Company.remove key) st = (Return tt, st')
        /\ Store.has_company key st' = false
        /\ Store.run cascade other (Company.get key) st' = (Return [], st'))
  /\ (Store.has_company key st = false ->
      fst (Store.run cascade other (Company.remove key) st)
      = Throw (NotFoundError ("No company: " ++ key)))
  /\ (Store.has_job key st = true ->
      exists st',
        Store.run cascade other (Job.remove key) st = (Return tt, st')
        /\ Store.has_job key st' = false
        /\ Store.run cascade other (Job.get key) st'
           = (Throw (NotFoundError ("No job: " ++ key)), st')).
Proof.
  split; [|split; [|split]]; intros H.
  - rewrite run_Job_remove. unfold Store.delete_job. simpl.
    unfold Store.has_job in H. now rewrite (filter_none _ _ H).
  - exists (snd (Store.delete_company cascade key st)).
    assert (Hgone : Store.has_company key
                      (snd (Store.delete_company cascade key st)) = false).
    { unfold Store.has_company, Store.delete_company. simpl.
      apply (existsb_filter_negb
               (fun c => String.eqb (Store.handle c) key)). }
    split; [|split; [exact Hgone|]].
    + rewrite run_Company_remove. unfold Store.delete_company at 1. simpl.
      unfold Store.has_company in H.
      destruct (filter_some _ _ H) as (c & rest & E). now rewrite E.
    + rewrite run_Company_get. now rewrite select_company_jobs_missing.
  - rewrite run_Company_remove. unfold Store.delete_company. simpl.
    unfold Store.has_company in H. now rewrite (filter_none _ _ H).
  - exists (snd (Store.delete_job key st)).
    assert (Hgone : Store.has_job key (snd (Store.delete_job key st)) = false).
    { unfold Store.has_job, Store.delete_job. simpl.
      apply (existsb_filter_negb (fun j => String.eqb (Store.title j) key)). }
    split; [|split; [exact Hgone|]].
    + rewrite run_Job_remove. unfold Store.delete_job at 1. simpl.
      unfold Store.has_job in H.
      destruct (filter_some _ _ H) as (j & rest & E). now rewrite E.
    + rewrite run_Job_get. unfold Store.select_job.
      unfold Store.has_job in Hgone. now rewrite (filter_none _ _ Hgone).
Qed.

End Running.

Lemma Company_get_returns_rows_witness :
  Store.run true rejecting (Company.get "nope") sample_store
  = (Return [], sample_store)
  /\ Store.run true rejecting (Company.get "c2") sample_store
     = (Return [], sample_store).
Proof.
  split.
  - apply (proj1 (proj2 (Company_get_returns_rows true rejecting
                           "nope" sample_store))).
    reflexivity.
  - apply (proj2 (proj2 (Company_get_returns_rows true rejecting
                           "c2" sample_store))).
    intros j [<- | [<- | []]]; discriminate.
Defined.

Lemma remove_then_get_witness :
  fst (Store.run true rejecting (Job.remove "nope") sample_store)
  = Throw (ReferenceError "handle")
  /\ exists st',
      Store.run true rejecting (Company.remove "c1") sample_store
      = (Return tt, st')
      /\ Store.has_company "c1" st' = false
      /\ Store.run true rejecting (Company.get "c1") st' = (Return [], st').
Proof.
  split.
  - apply (proj1 (remove_then_get true rejecting "nope" sample_store)).
    reflexivity.
  - apply (proj1 (proj2 (remove_then_get true rejecting "c1" sample_store))).
    reflexivity.
Defined.

(** C2 (what the code does): for a non-empty [data], the one statement
    [Job.update] sends is an [UPDATE companies] whose [SET] list is the
    one [sqlForPartialUpdate] builds and whose [WHERE] names a [title]
    column; its binds are the values of [data] followed by the title.  No
    statement addresses the [jobs] table.  [Company.update] sends an
    [UPDATE companies] of the same shape, keyed by [handle]. *)
Theorem Job_update_statement (title : string) (data : object value) :
  data <> [] ->
  exists k,
    Job.update title data
    = Query ("UPDATE companies " ++ nl
               ++ "                      SET "
               ++ String.concat ", " (Sql.cols data Job.jsToSql) ++ " " ++ nl
               ++ "                      WHERE title = $"
               ++ dec (List.length data + 1) ++ " " ++ nl
               ++ "                      RETURNING title, " ++ nl
               ++ "                                salary, " ++ nl
               ++ "                                equity ")
            (vals data ++ [VStr title])%list
            k
    /\ (forall answer,
           List.length (sent answer (Job.update title data)) = 1)
    /\ exists k' rest,
        Company.update title data
        = Query ("UPDATE companies " ++ rest)
                (vals data ++ [VStr title])%list k'.
Proof.
  intros Hne. unfold Job.update, Company.update.
  rewrite !(sqlForPartialUpdate_nonempty _ Hne). simpl.
  eexists. split; [|split].
  - unfold Job.update_sql, template, vals. rewrite length_map. simpl.
    rewrite !append_assoc. reflexivity.
  - intros answer. now destruct (answer _ _).
  - eexists. eexists. unfold Company.update_sql, template. simpl.
    rewrite !append_assoc. reflexivity.
Qed.

Lemma Job_update_statement_witness :
  exists k,
    Job.update "j1" [("salary", VNum 200)]
    = Query ("UPDATE companies " ++ nl
               ++ "                      SET " ++ dq ++ "salary" ++ dq
               ++ "=$1 " ++ nl
               ++ "                      WHERE title = $2 " ++ nl
               ++ "                      RETURNING title, " ++ nl
               ++ "                                salary, " ++ nl
               ++ "                                equity ")
            [VNum 200; VStr "j1"]
            k.
Proof.
  assert (Hne : [("salary", VNum 200)] <> @nil (string * value))
    by discriminate.
  destruct (@Job_update_statement "j1" [("salary", VNum 200)] Hne)
    as (k & E & _).
  exists k. exact E.
Defined.


(** * Further properties of the repositories *)

(** ** Partial updates *)

(** X1: [sqlForPartialUpdate] throws exactly when the mapping is empty,
    and the only error it throws is the bad-request error "No data",
    whatever the alias table. *)
Theorem sqlForPartialUpdate_throws_iff_empty (data : object value)
  (jsToSql : object string) :
  (Sql.sqlForPartialUpdate data jsToSql = Throw (BadRequestError "No data")
   <-> data = [])
  /\ (forall e, Sql.sqlForPartialUpdate data jsToSql = Throw e ->
                e = BadRequestError "No data" /\ data = []).
Proof.
  destruct data as [|p rest].
  - split; [split; reflexivity|]. intros e H. injection H as <-. now split.
  - rewrite sqlForPartialUpdate_nonempty by discriminate.
    split; [split; discriminate | discriminate].
Qed.

(** X2: [update] sends a statement exactly when [data] is non-empty, and
    then one only; with an empty [data] it ends in the bad-request error
    "No data" without reaching the store.  Both repositories. *)
Theorem update_sends_iff_data (key : string) (data : object value)
  (answer : string -> list value -> list row) :
  (sent answer (Company.update key data) = [] <-> data = [])
  /\ (sent answer (Job.update key data) = [] <-> data = [])
  /\ List.length (sent answer (Company.update key data)) <= 1
  /\ List.length (sent answer (Job.update key data)) <= 1
  /\ Company.update key [] = Done (Throw (BadRequestError "No data"))
  /\ Job.update key [] = Done (Throw (BadRequestError "No data")).
Proof.
  unfold Company.update, Job.update.
  destruct data as [|p rest].
  - simpl. repeat split; auto.
  - rewrite !sqlForPartialUpdate_nonempty by discriminate. simpl.
    destruct (answer _ _), (answer _ _); simpl;
      repeat split; try discriminate; auto.
Qed.

(** The alias tables of the two repositories. *)
Lemma Job_column k : Sql.column Job.jsToSql k = Sql.column [] k.
Proof.
  unfold Sql.column at 1. unfold Job.jsToSql. cbn [lookup].
  destruct (String.eqb_spec "salary" k) as [<- | _]; [reflexivity|].
  destruct (String.eqb_spec "equity" k) as [<- | _]; reflexivity.
Qed.

Lemma Company_column k :
  Sql.column Company.jsToSql k
  = if String.eqb "numEmployees" k then "num_employees"
    else if String.eqb "logoUrl" k then "logo_url" else Sql.column [] k.
Proof.
  unfold Sql.column at 1. unfold Company.jsToSql. cbn [lookup].
  destruct (String.eqb "numEmployees" k); [reflexivity|].
  destruct (String.eqb "logoUrl" k); reflexivity.
Qed.

Lemma column_not_inherited k :
  lookup Object_prototype k = None -> Sql.column [] k = k.
Proof.
  intros H. unfold Sql.column. cbn [lookup]. now rewrite H.
Qed.

Lemma map_idx_ext {A B} (f g : A -> nat -> B) (xs : list A) :
  (forall x idx, f x idx = g x idx) ->
  forall idx, map_idx f idx xs = map_idx g idx xs.
Proof.
  intros H. induction xs as [|x rest IH]; intros idx; simpl; [reflexivity|].
  now rewrite H, IH.
Qed.

(** X3: the alias table of [Job.update] renames nothing: the fragments
    are those of an empty table, and each names its key unless the key is
    the name of a member inherited from [Object.prototype].  The table of
    [Company.update] renames [numEmployees] and [logoUrl] to
    [num_employees] and [logo_url] and, of the keys that are not such
    names, no other. *)
Theorem update_alias_tables (data : object value) :
  Sql.cols data Job.jsToSql = Sql.cols data []
  /\ (forall n k v,
         nth_error data n = Some (k, v) ->
         lookup Object_prototype k = None ->
         nth_error (Sql.cols data Job.jsToSql) n
         = Some (dq ++ k ++ dq ++ "=$" ++ dec (S n)))
  /\ (forall n k v,
         nth_error data n = Some (k, v) ->
         lookup Object_prototype k = None ->
         nth_error (Sql.cols data Company.jsToSql) n
         = Some (dq ++ (if String.eqb k "numEmployees" then "num_employees"
                        else if String.eqb k "logoUrl" then "logo_url"
                        else k)
                    ++ dq ++ "=$" ++ dec (S n))).
Proof.
  split; [|split].
  - unfold Sql.cols. apply map_idx_ext. intros k idx.
    unfold Sql.assignment. now rewrite Job_column.
  - intros n k v Hn Hk.
    rewrite (@assignment_nth data Job.jsToSql n k v Hn).
    now rewrite Job_column, column_not_inherited.
  - intros n k v Hn Hk.
    rewrite (@assignment_nth data Company.jsToSql n k v Hn).
    rewrite Company_column, column_not_inherited by exact Hk.
    now rewrite (String.eqb_sym "numEmployees"), (String.eqb_sym "logoUrl").
Qed.

Lemma update_alias_tables_witness :
  Sql.cols [("title", VStr "t"); ("logoUrl", VStr "u")] Job.jsToSql
  = [dq ++ "title" ++ dq ++ "=$1"; dq ++ "logoUrl" ++ dq ++ "=$2"]
  /\ nth_error (Sql.cols [("name", VStr "n"); ("logoUrl", VStr "u")]
                         Company.jsToSql) 1
     = Some (dq ++ "logo_url" ++ dq ++ "=$2").
Proof.
  pose proof (update_alias_tables [("title", VStr "t"); ("logoUrl", VStr "u")])
    as (E & _ & _).
  pose proof (update_alias_tables [("name", VStr "n"); ("logoUrl", VStr "u")])
    as (_ & _ & HC).
  split.
  - rewrite E. reflexivity.
  - apply (HC 1 "logoUrl" (VStr "u")); reflexivity.
Defined.

(** ** Alignment of every statement sent *)












(** ** More on [findAll] *)

(** X5: no filter value reaches the statement text.  Two option mappings
    whose filters are truthy at the same places yield the same text
    (for jobs, [hasEquity] counts through being defined and being
    truthy); the values only appear among the binds. *)
Theorem findAll_text_ignores_values (o o' : object value) :
  (truthy (prop o "name") = truthy (prop o' "name") ->
   truthy (prop o "minEmployees") = truthy (prop o' "minEmployees") ->
   truthy (prop o "maxEmployees") = truthy (prop o' "maxEmployees") ->
   search (Company.assemble o) = search (Company.assemble o'))
  /\ (truthy (prop o "title") = truthy (prop o' "title") ->
      truthy (prop o "minSalary") = truthy (prop o' "minSalary") ->
      is_defined (prop o "hasEquity") = is_defined (prop o' "hasEquity") ->
      truthy (prop o "hasEquity") = truthy (prop o' "hasEquity") ->
      search (Job.assemble o) = search (Job.assemble o')).
Proof.
  split.
  - intros H1 H2 H3.
    unfold Company.assemble, Company.filter_maxEmployees,
      Company.filter_minEmployees, Company.filter_name.
    rewrite H1, H2, H3.
    destruct (truthy (prop o' "name")), (truthy (prop o' "minEmployees")),
      (truthy (prop o' "maxEmployees")); reflexivity.
  - intros H1 H2 H3 H4.
    unfold Job.assemble, Job.filter_hasEquity, Job.filter_minSalary,
      Job.filter_title.
    rewrite H1, H2, H3, H4.
    destruct (truthy (prop o' "title")), (truthy (prop o' "minSalary")),
      (is_defined (prop o' "hasEquity")), (truthy (prop o' "hasEquity"));
      reflexivity.
Qed.

Lemma findAll_text_ignores_values_witness :
  search (Company.assemble [("name", VStr "net"); ("maxEmployees", VNum 5)])
  = search (Company.assemble
              [("maxEmployees", VNum 900); ("name", VStr "x' OR 1=1 --")]).
Proof.
  apply (proj1 (findAll_text_ignores_values
                  [("name", VStr "net"); ("maxEmployees", VNum 5)]
                  [("maxEmployees", VNum 900);
                   ("name", VStr "x' OR 1=1 --")]));
    reflexivity.
Defined.

(** X6: the binds of [findAll] are the truthy filters in the order name
    (or title), minimum, maximum; the text filter is bound as the pattern
    [%value%] and the numeric filters as they are; a filter that is
    absent, the empty string or zero is not bound, and [hasEquity] never
    is.  These are the binds of the statement sent. *)
Theorem findAll_binds (gt_string : value -> value -> bool)
  (options : object value) :
  values (Company.assemble options) = company_binds options
  /\ values (Job.assemble options) = job_binds options
  /\ (forall sql binds k,
         Company.findAll gt_string options = Query sql binds k ->
         binds = company_binds options)
  /\ (forall sql binds k,
         Job.findAll options = Query sql binds k ->
         binds = job_binds options).
Proof.
  assert (HC : values (Company.assemble options) = company_binds options).
  { unfold company_binds. split_company options; reflexivity. }
  assert (HJ : values (Job.assemble options) = job_binds options).
  { unfold job_binds. split_job options; reflexivity. }
  split; [exact HC|]. split; [exact HJ|]. split.
  - intros sql binds k H. unfold Company.findAll in H.
    destruct (Nat.ltb 0 _); [discriminate H|].
    destruct (js_gt _ _ _); [discriminate H|].
    injection H as _ <- _. exact HC.
  - intros sql binds k H. unfold Job.findAll in H.
    destruct (Nat.ltb 0 _); [discriminate H|].
    injection H as _ <- _. exact HJ.
Qed.

(** X7: a single numeric bound never conflicts.  When the keys are in
    the allow-list and one of [minEmployees], [maxEmployees] is a number
    while the other is absent, [Company.findAll] sends its statement:
    the comparison with [undefined] is false. *)
Theorem findAll_single_bound (gt_string : value -> value -> bool)
  (options : object value) (z : Z) :
  (forall k, In k (keys options) -> In k Company.validFilters) ->
  (prop options "minEmployees" = VNum z
   /\ prop options "maxEmployees" = VUndefined)
  \/ (prop options "minEmployees" = VUndefined
      /\ prop options "maxEmployees" = VNum z) ->
  Company.findAll gt_string options
  = Query (search (Company.assemble options))
          (values (Company.assemble options))
          (fun rows => Done (Return rows)).
Proof.
  intros Hkeys H.
  rewrite (Company_findAll_accepts gt_string options Hkeys).
  destruct H as [[-> ->] | [-> ->]]; reflexivity.
Qed.

Lemma findAll_single_bound_witness :
  Company.findAll (fun _ _ => true) [("maxEmployees", VNum 50)]
  = Query (Company.base ++ "WHERE num_employees <= $1ORDER BY name")
          [VNum 50]
          (fun rows => Done (Return rows)).
Proof.
  refine (@findAll_single_bound (fun _ _ => true)
            [("maxEmployees", VNum 50)] 50%Z _ _).
  - intros k [<- | []]; simpl; auto.
  - right. split; reflexivity.
Defined.

(** ** [create], [get] and [remove] against the store *)

Lemma flat_map_filter {A B} (p : A -> bool) (f : A -> list B) (xs : list A) :
  flat_map (fun x => if p x then f x else []) xs = flat_map f (filter p xs).
Proof.
  induction xs as [|x rest IH]; simpl; [reflexivity|].
  destruct (p x); simpl; now rewrite IH.
Qed.

Lemma filter_filter_other {A} (f : A -> string) (key key' : string)
  (xs : list A) :
  key' <> key ->
  filter (fun x => String.eqb (f x) key')
         (filter (fun x => negb (String.eqb (f x) key)) xs)
  = filter (fun x => String.eqb (f x) key') xs.
Proof.
  intros Hne. induction xs as [|x rest IH]; simpl; [reflexivity|].
  destruct (String.eqb_spec (f x) key) as [E | E]; simpl.
  - destruct (String.eqb_spec (f x) key'); [congruence | exact IH].
  - destruct (String.eqb (f x) key'); now rewrite IH.
Qed.

Section Creating.

Variable cascade : bool.
Variable other : string -> list value -> Store.t -> outcome (list row) * Store.t.

(** The store of this section answers the statements of [get] and
    [remove] and the duplicate checks of [create]: [Store.creating] is
    the [other] of [Store.run]. *)

Lemma execute_Company_duplicate key st :
  Store.execute cascade (Store.creating other)
                Company.duplicate_sql [VStr key] st
  = (Return (Store.select_company_handle key st), st).
Proof.
  unfold Store.execute, Store.creating.
  assert (E1 : String.eqb Company.duplicate_sql Company.get_sql = false)
    by reflexivity.
  assert (E2 : String.eqb Company.duplicate_sql Company.remove_sql = false)
    by reflexivity.
  assert (E3 : String.eqb Company.duplicate_sql Job.get_sql = false)
    by reflexivity.
  assert (E4 : String.eqb Company.duplicate_sql Job.remove_sql = false)
    by reflexivity.
  now rewrite E1, E2, E3, E4, String.eqb_refl.
Qed.

Lemma execute_Job_duplicate key st :
  Store.execute cascade (Store.creating other) Job.duplicate_sql [VStr key] st
  = (Return (Store.select_job_id key st), st).
Proof.
  unfold Store.execute, Store.creating.
  assert (E1 : String.eqb Job.duplicate_sql Company.get_sql = false)
    by reflexivity.
  assert (E2 : String.eqb Job.duplicate_sql Company.remove_sql = false)
    by reflexivity.
  assert (E3 : String.eqb Job.duplicate_sql Job.get_sql = false)
    by reflexivity.
  assert (E4 : String.eqb Job.duplicate_sql Job.remove_sql = false)
    by reflexivity.
  assert (E5 : String.eqb Job.duplicate_sql Company.duplicate_sql = false)
    by reflexivity.
  now rewrite E1, E2, E3, E4, E5, String.eqb_refl.
Qed.

Lemma run_create_duplicate (data : object value) (h : string)
  (st : Store.t) :
  prop data "handle" = VStr h ->
  Store.has_company h st = true ->
  Store.run cascade (Store.creating other) (Company.create data) st
  = (Throw (BadRequestError ("Duplicate company: " ++ h)), st).
Proof.
  intros Hh Hdup. unfold Company.create. rewrite Hh.
  cbn [Store.run]. rewrite execute_Company_duplicate.
  unfold Store.select_company_handle.
  destruct (filter_some _ _ Hdup) as (c & rest & E). now rewrite E.
Qed.

(** X8: [Company.create] of a handle the store already holds throws the
    bad-request error "Duplicate company: <handle>" and leaves the store
    as it was; the insertion is not reached. *)
Theorem Company_create_duplicate (data : object value) (h : string)
  (st : Store.t) :
  prop data "handle" = VStr h ->
  Store.has_company h st = true ->
  Store.run cascade (Store.creating other) (Company.create data) st
  = (Throw (BadRequestError ("Duplicate company: " ++ h)), st).
Proof. apply run_create_duplicate. Qed.

(** X12: [remove] clears its key whatever its outcome.  After
    [Company.remove] of a handle the store does not hold the handle and
    a further [Company.remove] of it throws the not-found error; after
    [Job.remove] of a title the store holds no job of that title and
    [Job.get] of it throws the not-found error. *)
Theorem remove_clears_key (key : string) (st : Store.t) :
  Store.has_company key
    (snd (Store.run cascade (Store.creating other) (Company.remove key) st))
  = false
  /\ fst (Store.run cascade (Store.creating other) (Company.remove key)
            (snd (Store.run cascade (Store.creating other)
                            (Company.remove key) st)))
     = Throw (NotFoundError ("No company: " ++ key))
  /\ Store.has_job key
       (snd (Store.run cascade (Store.creating other) (Job.remove key) st))
     = false
  /\ fst (Store.run cascade (Store.creating other) (Job.get key)
            (snd (Store.run cascade (Store.creating other)
                            (Job.remove key) st)))
     = Throw (NotFoundError ("No job: " ++ key)).
Proof.
 
  assert (HC : Store.has_company key
                 (snd (Store.delete_company cascade key st)) = false)
    by apply (existsb_filter_negb
                (fun c => String.eqb (Store.handle c) key)).
  assert (HJ : Store.has_job key (snd (Store.delete_job key st)) = false)
    by apply (existsb_filter_negb (fun j => String.eqb (Store.title j) key)).
  rewrite !run_Company_remove, run_Job_get, run_Job_remove.
  cbn [fst snd]. repeat split; try assumption.
  - unfold Store.delete_company at 1. cbn [fst].
    unfold Store.has_company in HC. now rewrite (filter_none _ _ HC).
  - unfold Store.select_job.
    unfold Store.has_job in HJ. now rewrite (filter_none _ _ HJ).
Qed.

Lemma select_company_jobs_by_filter key st :
  Store.select_company_jobs key st
  = flat_map
      (fun c => map (Store.joined c)
                    (filter (fun j => String.eqb (Store.company_handle j)
                                                 (Store.handle c))
                            (Store.jobs st)))
      (filter (fun c => String.eqb (Store.handle c) key)
              (Store.companies st)).
Proof.
  unfold Store.select_company_jobs. apply flat_map_filter.
Qed.

Lemma flat_map_ext_In {A B} (f g : A -> list B) (xs : list A) :
  (forall x, In x xs -> f x = g x) -> flat_map f xs = flat_map g xs.
Proof.
  induction xs as [|x rest IH]; intros H; simpl; [reflexivity|].
  rewrite (H x) by now left.
  rewrite IH; [reflexivity|]. intros y Hy. apply H. now right.
Qed.

(** X13: [remove] of one key leaves the other keys as they were.  For a
    key other than the removed one, [Job.get] and [Company.get] return
    after the removal what they returned before it, and [Job.remove]
    changes no company. *)
Theorem remove_frame (key key' : string) (st : Store.t) :
  key' <> key ->
  fst (Store.run cascade (Store.creating other) (Job.get key')
         (snd (Store.run cascade (Store.creating other)
                         (Job.remove key) st)))
  = fst (Store.run cascade (Store.creating other) (Job.get key') st)
  /\ Store.companies
       (snd (Store.run cascade (Store.creating other) (Job.remove key) st))
     = Store.companies st
  /\ fst (Store.run cascade (Store.creating other) (Company.get key')
            (snd (Store.run cascade (Store.creating other)
                            (Company.remove key) st)))
     = fst (Store.run cascade (Store.creating other) (Company.get key') st).
Proof.
  intros Hne.
  rewrite run_Job_remove, run_Company_remove, !run_Job_get, !run_Company_get.
  cbn [fst snd]. split; [|split; [reflexivity|]].
  - unfold Store.delete_job, Store.select_job. cbn [snd Store.jobs].
    now rewrite (filter_filter_other Store.title _ Hne).
  - f_equal. f_equal. rewrite !select_company_jobs_by_filter.
    unfold Store.delete_company. cbn [snd Store.companies Store.jobs].
    rewrite (filter_filter_other Store.handle _ Hne).
    destruct cascade; [|reflexivity].
    apply flat_map_ext_In. intros c Hc. f_equal.
    apply filter_In in Hc. destruct Hc as [_ Hc].
    apply String.eqb_eq in Hc.
    apply (filter_filter_other Store.company_handle). congruence.
Qed.

Lemma filter_find {A} (p : A -> bool) (xs : list A) :
  hd_error (filter p xs) = find p xs.
Proof.
  induction xs as [|x rest IH]; simpl; [reflexivity|].
  destruct (p x); [reflexivity | exact IH].
Qed.

(** X14: [Job.get] returns the first job of the store that has the
    title, as the record of its title, salary, equity and company handle
    under the names [title], [salary], [equity], [companyHandle]; it
    throws the not-found error "No job: <title>" when no job has the
    title.  The store is left as it was. *)
Theorem Job_get_first_match (key : string) (st : Store.t) :
  Store.run cascade (Store.creating other) (Job.get key) st
  = (match find (fun j => String.eqb (Store.title j) key) (Store.jobs st) with
     | Some j =>
       Return [ ("title", VStr key);
                ("salary", Store.salary j);
                ("equity", Store.equity j);
                ("companyHandle", VStr (Store.company_handle j)) ]
     | None => Throw (NotFoundError ("No job: " ++ key))
     end, st).
Proof.
  rewrite run_Job_get. unfold Store.select_job.
  pose proof (filter_find (fun j => String.eqb (Store.title j) key)
                          (Store.jobs st)) as Hf.
  destruct (filter _ (Store.jobs st)) as [|j rest] eqn:E;
    simpl in Hf; rewrite <- Hf; [reflexivity|].
  assert (Hj : In j (filter (fun j => String.eqb (Store.title j) key)
                            (Store.jobs st))) by (rewrite E; now left).
  apply filter_In in Hj. destruct Hj as [_ Hj]. apply String.eqb_eq in Hj.
  cbn [map]. now rewrite Hj.
Qed.

(** X15: when exactly one company [c] has the handle, [Company.get]
    returns one entry per job that refers to the handle, in the order of
    the jobs; each entry repeats the name, description, employee count
    and logo of [c] (under [name], [description], [num_employees],
    [logo_url]) and carries the id, title, salary and equity of its job
    under [jobs].  No entry carries the handle. *)
Theorem Company_get_entries (key : string) (c : Store.company_row)
  (st : Store.t) :
  filter (fun c => String.eqb (Store.handle c) key) (Store.companies st)
  = [c] ->
  Store.run cascade (Store.creating other) (Company.get key) st
  = (Return
       (map (fun j =>
               {| Company.name := VStr (Store.name c);
                  Company.description := VStr (Store.description c);
                  Company.num_employees := Store.num_employees c;
                  Company.logo_url := Store.logo_url c;
                  Company.jobs :=
                    {| Company.id := VNum (Store.id j);
                       Company.title := VStr (Store.title j);
                       Company.salary := Store.salary j;
                       Company.equity := Store.equity j |} |})
            (filter (fun j => String.eqb (Store.company_handle j) key)
                    (Store.jobs st))),
     st).
Proof.
  intros Hc. rewrite run_Company_get.
  rewrite select_company_jobs_by_filter, Hc. cbn [flat_map].
  rewrite app_nil_r, map_map.
  assert (Hk : Store.handle c = key).
  { assert (Hin : In c [c]) by now left.
    rewrite <- Hc in Hin. apply filter_In in Hin.
    now apply String.eqb_eq. }
  rewrite Hk. reflexivity.
Qed.

(** X16: [Job.create] of a title some job of the store already has
    throws the bad-request error "Duplicate job: <title> at <company>",
    whatever the company of the new job and of the existing one, and
    leaves the store as it was: a title can be created once. *)
Theorem Job_create_duplicate (data : object value) (t : string)
  (st : Store.t) :
  prop data "title" = VStr t ->
  Store.has_job t st = true ->
  Store.run cascade (Store.creating other) (Job.create data) st
  = (Throw (BadRequestError
              ("Duplicate job: " ++ t ++ " at "
                 ++ to_string (prop data "companyHandle"))), st).
Proof.
  intros Ht Hdup. unfold Job.create. rewrite Ht.
  cbn [Store.run]. rewrite execute_Job_duplicate.
  unfold Store.select_job_id.
  destruct (filter_some _ _ Hdup) as (j & rest & E). now rewrite E.
Qed.

End Creating.

(** X17: every statement [create], [get] and [remove] send is aligned
    with its binds, for every argument and every answer of the store: the
    duplicate checks, lookups and deletions have the one placeholder [$1]
    and one bind, the insertions [$1] to [$5] (companies) or [$4] (jobs)
    and as many binds. *)
Theorem fixed_statements_aligned (data : object value) (key : string)
  (answer : string -> list value -> list row) :
  all_aligned (sent answer (Company.create data))
  /\ all_aligned (sent answer (Job.create data))
  /\ all_aligned (sent answer (Company.get key))
  /\ all_aligned (sent answer (Job.get key))
  /\ all_aligned (sent answer (Company.remove key))
  /\ all_aligned (sent answer (Job.remove key)).
Proof.
  unfold all_aligned, Company.create, Job.create, Company.get, Job.get,
    Company.remove, Job.remove.
  cbn [sent].
  repeat split;
    destruct (answer _ _); cbn [sent array_truthy negb];
    repeat constructor.
Qed.

Lemma Company_create_duplicate_witness :
  Store.run true (Store.creating rejecting)
            (Company.create [("handle", VStr "c1"); ("name", VStr "Again")])
            sample_store
  = (Throw (BadRequestError "Duplicate company: c1"), sample_store).
Proof.
  apply (@Company_create_duplicate true rejecting
           [("handle", VStr "c1"); ("name", VStr "Again")] "c1" sample_store);
    reflexivity.
Defined.

Lemma remove_frame_witness :
  fst (Store.run true (Store.creating rejecting) (Job.get "j1")
         (snd (Store.run true (Store.creating rejecting)
                         (Job.remove "j3") sample_store)))
  = Return [ ("title", VStr "j1"); ("salary", VNum 100);
             ("equity", VStr "0.1"); ("companyHandle", VStr "c1") ].
Proof.
  assert (Hne : "j1" <> "j3") by discriminate.
  rewrite (proj1 (@remove_frame true rejecting "j3" "j1" sample_store Hne)).
  reflexivity.
Defined.

Lemma Company_get_entries_witness :
  fst (Store.run true (Store.creating rejecting) (Company.get "c1")
                 sample_store)
  = Return [ {| Company.name := VStr "C1";
                Company.description := VStr "Desc1";
                Company.num_employees := VNum 1;
                Company.logo_url := VStr "http://c1.img";
                Company.jobs :=
                  {| Company.id := VNum 1; Company.title := VStr "j1";
                     Company.salary := VNum 100;
                     Company.equity := VStr "0.1" |} |} ].
Proof.
  rewrite (@Company_get_entries true rejecting "c1"
             {| Store.handle := "c1"; Store.name := "C1";
                Store.description := "Desc1"; Store.num_employees := VNum 1;
                Store.logo_url := VStr "http://c1.img" |}
             sample_store eq_refl).
  reflexivity.
Defined.

Lemma Job_create_duplicate_witness :
  Store.run true (Store.creating rejecting)
            (Job.create [("title", VStr "j1"); ("companyHandle", VStr "c2")])
            sample_store
  = (Throw (BadRequestError "Duplicate job: j1 at c2"), sample_store).
Proof.
  apply (@Job_create_duplicate true rejecting
           [("title", VStr "j1"); ("companyHandle", VStr "c2")] "j1"
           sample_store);
    reflexivity.
Defined.

(** ** The renderings at their edges *)

(** A field named like an inherited member, without alias, takes the
    member's text as its column. *)
Example column_of_inherited_name :
  Sql.cols [("toString", VNum 1)] []
  = [dq ++ "function toString() { [native code] }" ++ dq ++ "=$1"]
  /\ Sql.cols [("constructor", VNum 1)] Job.jsToSql
     = [dq ++ "function Object() { [native code] }" ++ dq ++ "=$1"].
Proof. split; reflexivity. Qed.

(** Numbers in a name pattern: digit for digit below [2^53], the
    shortest digits padded with zeros up to 21 digits, exponent form
    beyond. *)
Example pattern_of_a_number :
  values (Company.assemble [("name", VNum 42)]) = [VStr "%42%"]
  /\ values (Company.assemble [("name", VNum (2 ^ 64))])
     = [VStr "%18446744073709552000%"]
  /\ values (Company.assemble [("name", VNum (10 ^ 21))]) = [VStr "%1e+21%"]
  /\ values (Company.assemble [("name", VNum (- 2 ^ 70))])
     = [VStr "%-1.1805916207174113e+21%"].
Proof. repeat split; vm_compute; reflexivity. Qed.
